(** * A 3-bit R2R ladder DAC driving a speaker: [Theory/R2R/try2.py]

    The Python module defines the class [R2RNetwork] (a closed-form
    Thevenin model of the ladder and the voltage divider it forms with
    a 16 ohm load), a report method that prints while it computes, and a
    script part that prints three examples and an 8-row truth table.

    The embedding is shallow and follows the source line by line:

    - a Python call either returns a value or raises: [outcome];
    - the arithmetic operators of the source are kept abstract in a
      class [PyNumber], so that the methods are written once; they are
      instantiated at the real numbers (the reading the specification
      uses: "all quantities are real-valued") and at IEEE binary64 (what
      CPython computes with), the latter for runs on concrete inputs;
    - true division [/] raises [ZeroDivisionError] on a zero divisor,
      as it does in Python for [int] and [float] operands;
    - [print] appends one entry to the standard output, which survives
      an exception raised later. *)

From Stdlib Require Import ZArith List String Ascii Bool Lia Reals Lra Floats.
From ExtLib Require Import Structures.Monad.
Import ListNotations.
Import MonadNotation.
Local Open Scope monad_scope.
Local Open Scope string_scope.

(** ** Outcomes of a Python call *)

Inductive exn : Type :=
| ZeroDivisionError.

Inductive outcome (A : Type) : Type :=
| Ok (a : A)
| Raise (e : exn).

Arguments Ok {A} a.
Arguments Raise {A} e.

Definition outcome_bind {A B : Type} (m : outcome A) (k : A -> outcome B)
  : outcome B :=
  match m with
  | Ok a => k a
  | Raise e => Raise e
  end.

#[global] Instance Monad_outcome : Monad outcome :=
  {| ret := @Ok; bind := @outcome_bind |}.

Definition outcome_map {A B : Type} (f : A -> B) (m : outcome A) : outcome B :=
  match m with
  | Ok a => Ok (f a)
  | Raise e => Raise e
  end.

(** ** The numbers of the source

    [of_int] is the value an [int] takes when it meets a float in an
    arithmetic operator ([v1 / 2], [r_th + self.speaker_load]); [quot]
    is the quotient for a divisor that is not zero, and [is_zero] the
    test [b == 0] that Python's division performs first. *)

Class PyNumber (T : Type) : Type := {
  of_int : Z -> T;
  add : T -> T -> T;
  mul : T -> T -> T;
  quot : T -> T -> T;
  is_zero : T -> bool
}.

(** Real numbers: exact arithmetic. *)
#[global] Instance PyNumber_R : PyNumber R := {|
  of_int := IZR;
  add := Rplus;
  mul := Rmult;
  quot := Rdiv;
  is_zero := fun x => if Req_dec_T x 0%R then true else false
|}.

(** IEEE binary64, the [float] of CPython.  The integers of the source
    (2, 4, 8, 16, 1000, 2000, 10000 and the like) are far below 2^53, so
    their conversion is exact. *)
Definition float_of_Z (z : Z) : float :=
  match z with
  | Z0 => 0%float
  | Zpos _ => PrimFloat.of_uint63 (Uint63.of_Z z)
  | Zneg p => PrimFloat.opp (PrimFloat.of_uint63 (Uint63.of_Z (Zpos p)))
  end.

#[global] Instance PyNumber_float : PyNumber float := {|
  of_int := float_of_Z;
  add := PrimFloat.add;
  mul := PrimFloat.mul;
  quot := PrimFloat.div;
  is_zero := fun x => PrimFloat.eqb x 0%float
|}.

Section Operators.
Context {T : Type} `{PyNumber T}.

(** [x / y] *)
Definition truediv (x y : T) : outcome T :=
  if is_zero y then Raise ZeroDivisionError else Ok (quot x y).

(** A decimal literal such as [3.3], given as [33] over [10]: the
    number nearest to the quotient of two exact integers. *)
Definition decimal (num den : Z) : T := quot (of_int num) (of_int den).
End Operators.

(** ** Standard output

    A formatted number is kept as its format and its value: [Fixed w p x]
    stands for [{x:w.pf}] ([w = 0] when the source gives no width) and
    [Plain x] for [{x}].  Text is rendered. *)

Inductive piece (T : Type) : Type :=
| Text (s : string)
| Fixed (width prec : nat) (x : T)
| Plain (x : T).

Arguments Text {T} s.
Arguments Fixed {T} width prec x.
Arguments Plain {T} x.

(** One entry per call of [print]. *)
Definition stdout (T : Type) : Type := list (list (piece T)).

(** A computation that prints: the output written so far goes in, the
    outcome and the output written until then come out. *)
Definition Py (T A : Type) : Type := stdout T -> outcome A * stdout T.

Definition Py_ret {T A : Type} (a : A) : Py T A := fun out => (Ok a, out).

Definition Py_bind {T A B : Type} (m : Py T A) (k : A -> Py T B) : Py T B :=
  fun out =>
    match m out with
    | (Ok a, out') => k a out'
    | (Raise e, out') => (Raise e, out')
    end.

#[global] Instance Monad_Py {T : Type} : Monad (Py T) :=
  {| ret := @Py_ret T; bind := @Py_bind T |}.

Definition print {T : Type} (l : list (piece T)) : Py T unit :=
  fun out => (Ok tt, (out ++ [l])%list).

(** A call of a method that does not print. *)
Definition call {T A : Type} (m : outcome A) : Py T A := fun out => (m, out).

(** [for i in range(n): body] *)
Fixpoint for_in {T : Type} (l : list Z) (body : Z -> Py T unit) : Py T unit :=
  match l with
  | [] => ret tt
  | i :: l' => body i ;; for_in l' body
  end.

Definition range (n : nat) : list Z := map Z.of_nat (seq 0 n).

(** ** Strings *)

Definition NL : string := String (ascii_of_nat 10) EmptyString.

(** [s * n] *)
Fixpoint str_repeat (s : string) (n : nat) : string :=
  match n with
  | O => EmptyString
  | S n' => s ++ str_repeat s n'
  end.

(** [{s:>w}]: right-aligned in a field of [w] characters. *)
Definition rjust (w : nat) (s : string) : string :=
  str_repeat " " (w - String.length s) ++ s.

(** Binary digits of a positive number, most significant first. *)
Fixpoint bin_digits (p : positive) (acc : string) : string :=
  match p with
  | xH => String "1" acc
  | xO q => bin_digits q (String "0" acc)
  | xI q => bin_digits q (String "1" acc)
  end.

(** [{i:0wb}]: binary, padded with zeros after the sign to [w] characters. *)
Definition format_0b (w : nat) (i : Z) : string :=
  match i with
  | Z0 => str_repeat "0" (w - 1) ++ "0"
  | Zpos p =>
      let d := bin_digits p EmptyString in
      str_repeat "0" (w - String.length d) ++ d
  | Zneg p =>
      let d := bin_digits p EmptyString in
      "-" ++ str_repeat "0" (w - 1 - String.length d) ++ d
  end.

(** Truth value of an [int]. *)
Definition truthy (z : Z) : bool := negb (Z.eqb z 0).

(** ** class R2RNetwork *)

Module R2RNetwork.

Record t (T : Type) : Type := mk {
  R : T;             (* Base resistance *)
  num_bits : Z;      (* Three voltage sources (v1, v2, v3) *)
  speaker_load : T   (* 16 ohm speaker *)
}.

Arguments mk {T} R num_bits speaker_load.
Arguments R {T} t.
Arguments num_bits {T} t.
Arguments speaker_load {T} t.

Section Methods.
Context {T : Type} `{PyNumber T}.

(** The default of [r_value]. *)
Definition r_value_default : T := of_int 10000.

(** [R2RNetwork(r_value)]: three attribute assignments, no check. *)
Definition __init__ (r_value : T) : outcome (t T) :=
  ret {| R := r_value; num_bits := 3; speaker_load := of_int 16 |}.

Definition calculate_thevenin_equivalent (self : t T) (v1 v2 v3 : T)
  : outcome (T * T) :=
  a <- truediv v1 (of_int 2) ;;
  b <- truediv v2 (of_int 4) ;;
  c <- truediv v3 (of_int 8) ;;
  let v_th := add (add a b) c in
  let r_th := R self in
  ret (v_th, r_th).

Definition calculate_output_voltage (self : t T) (v1 v2 v3 : T)
  : outcome (T * T * T) :=
  '(v_th, r_th) <- calculate_thevenin_equivalent self v1 v2 v3 ;;
  ratio <- truediv (speaker_load self) (add r_th (speaker_load self)) ;;
  let v_out := mul v_th ratio in
  current <- truediv v_out (speaker_load self) ;;
  let power := mul v_out current in
  ret (v_out, current, power).

Definition banner : string := str_repeat "=" 60.

Definition display_results (self : t T) (v1 v2 v3 : T) : Py T T :=
  print [Text banner] ;;
  print [Text "R2R LADDER DAC ANALYSIS"] ;;
  print [Text banner] ;;
  print [Text (NL ++ "Configuration:")] ;;
  r_k <- call (truediv (R self) (of_int 1000)) ;;
  print [Text "  Base Resistance (R): "; Fixed 0 1 r_k; Text " kΩ"] ;;
  print [Text "  Speaker Load: "; Plain (speaker_load self); Text " Ω"] ;;
  print [Text (NL ++ "Input Voltages:")] ;;
  print [Text "  V1 (MSB): "; Fixed 0 3 v1; Text " V"] ;;
  print [Text "  V2:       "; Fixed 0 3 v2; Text " V"] ;;
  print [Text "  V3 (LSB): "; Fixed 0 3 v3; Text " V"] ;;
  '(v_th, r_th) <- call (calculate_thevenin_equivalent self v1 v2 v3) ;;
  print [Text (NL ++ "Thevenin Equivalent:")] ;;
  print [Text "  V_th: "; Fixed 0 6 v_th; Text " V"] ;;
  rth_k <- call (truediv r_th (of_int 1000)) ;;
  print [Text "  R_th: "; Fixed 0 1 rth_k; Text " kΩ"] ;;
  '(v_out, current, power) <- call (calculate_output_voltage self v1 v2 v3) ;;
  print [Text (NL ++ "Output (across speaker):")] ;;
  print [Text "  Voltage: "; Fixed 0 6 v_out; Text " V"] ;;
  print [Text "  Current: "; Fixed 0 6 (mul current (of_int 1000)); Text " mA"] ;;
  print [Text "  Power:   "; Fixed 0 6 (mul power (of_int 1000)); Text " mW"] ;;
  print [Text banner] ;;
  ret v_out.

End Methods.
End R2RNetwork.

(** ** The script part ([if __name__ == "__main__":]) *)

Section Script.
Context {T : Type} `{PyNumber T}.

(** The f-string of one row of the truth table. *)
Definition row_line (v1 v2 v3 v_out : T) (binary : string) : list (piece T) :=
  [Fixed 6 1 v1; Text " "; Fixed 6 1 v2; Text " "; Fixed 6 1 v3;
   Text " | "; Fixed 12 6 v_out; Text " | "; Text (rjust 6 binary)].

(** The body of [for i in range(8)]; [0b100], [0b010], [0b001] are 4, 2, 1. *)
Definition truth_table_row (r2r : R2RNetwork.t T) (i : Z) : Py T unit :=
  let v1 := if truthy (Z.land i 4) then decimal 50 10 else decimal 0 10 in
  let v2 := if truthy (Z.land i 2) then decimal 50 10 else decimal 0 10 in
  let v3 := if truthy (Z.land i 1) then decimal 50 10 else decimal 0 10 in
  '(v_out, _, _) <- call (R2RNetwork.calculate_output_voltage r2r v1 v2 v3) ;;
  let binary := format_0b 3 i in
  print (row_line v1 v2 v3 v_out binary).

Definition truth_table (r2r : R2RNetwork.t T) : Py T unit :=
  for_in (range 8) (truth_table_row r2r).

Definition main : Py T unit :=
  r2r <- call (R2RNetwork.__init__ (of_int 2000)) ;;
  print [Text (NL ++ "Example 1: All bits HIGH (5V)")] ;;
  v_out1 <- R2RNetwork.display_results r2r
              (decimal 50 10) (decimal 50 10) (decimal 50 10) ;;
  print [Text (NL ++ NL ++ "Example 2: Binary pattern 101")] ;;
  v_out2 <- R2RNetwork.display_results r2r
              (decimal 50 10) (decimal 0 10) (decimal 50 10) ;;
  print [Text (NL ++ NL ++ "Example 3: Custom voltages")] ;;
  v_out3 <- R2RNetwork.display_results r2r
              (decimal 33 10) (decimal 15 10) (decimal 20 10) ;;
  print [Text (NL ++ NL ++ R2RNetwork.banner)] ;;
  print [Text "TRUTH TABLE (5V logic levels)"] ;;
  print [Text R2RNetwork.banner] ;;
  print [Text (rjust 6 "V1" ++ " " ++ rjust 6 "V2" ++ " " ++ rjust 6 "V3"
               ++ " | " ++ rjust 12 "V_out (V)" ++ " | " ++ rjust 6 "Binary")] ;;
  print [Text (str_repeat "-" 60)] ;;
  truth_table r2r ;;
  print [Text R2RNetwork.banner].
End Script.



(** * Properties over the real numbers *)

Local Open Scope R_scope.

Arguments truediv : simpl never.

(** ** Division *)

Lemma truediv_real (x y : R) : y <> 0 -> truediv x y = Ok (x / y).
Proof.
  intros Hy. unfold truediv. cbn.
  destruct (Req_dec_T y 0) as [E | _]; [contradiction | reflexivity].
Qed.

Lemma truediv_real_zero (x y : R) : y = 0 -> truediv x y = Raise ZeroDivisionError.
Proof.
  intros Hy. unfold truediv. cbn.
  destruct (Req_dec_T y 0) as [_ | N]; [reflexivity | contradiction].
Qed.

(** Rewrites a division whose divisor is visibly not zero. *)
Ltac divide :=
  repeat (rewrite truediv_real by (cbn; lra));
  cbn [bind ret Monad_outcome outcome_bind outcome_map fst snd].

Lemma decimal_real (n d : Z) : decimal n d = (IZR n / IZR d :> R).
Proof. reflexivity. Qed.

(** ** The Thevenin pair *)

Lemma thevenin_real (self : R2RNetwork.t R) (v1 v2 v3 : R) :
  R2RNetwork.calculate_thevenin_equivalent self v1 v2 v3
  = Ok (v1 / 2 + v2 / 4 + v3 / 8, R2RNetwork.R self).
Proof.
  unfold R2RNetwork.calculate_thevenin_equivalent. divide. reflexivity.
Qed.

(** C1. For all real [v1], [v2], [v3] and every network, whatever its
    base resistance, [calculate_thevenin_equivalent] returns (it does not
    raise) and the Thevenin voltage it returns is [v1/2 + v2/4 + v3/8]:
    [v1] carries the largest weight and [v3] the smallest. *)
Theorem thevenin_voltage_superposition :
  forall (self : R2RNetwork.t R) (v1 v2 v3 : R),
    outcome_map fst (R2RNetwork.calculate_thevenin_equivalent self v1 v2 v3)
    = Ok (v1 / 2 + v2 / 4 + v3 / 8).
Proof.
  intros self v1 v2 v3. rewrite thevenin_real. reflexivity.
Qed.

(** C2. For all real [v1], [v2], [v3] the Thevenin resistance returned
    is the base resistance [R] of the network, so it is the same for any
    two triples of input voltages. *)
Theorem thevenin_resistance_is_base :
  forall (self : R2RNetwork.t R) (v1 v2 v3 : R),
    outcome_map snd (R2RNetwork.calculate_thevenin_equivalent self v1 v2 v3)
    = Ok (R2RNetwork.R self)
    /\ forall w1 w2 w3 : R,
        outcome_map snd (R2RNetwork.calculate_thevenin_equivalent self w1 w2 w3)
        = outcome_map snd (R2RNetwork.calculate_thevenin_equivalent self v1 v2 v3).
Proof.
  intros self v1 v2 v3. split.
  - now rewrite thevenin_real.
  - intros w1 w2 w3. now rewrite !thevenin_real.
Qed.

(** ** The voltage divider *)

Lemma output_real (self : R2RNetwork.t R) (v1 v2 v3 : R) :
  let L := R2RNetwork.speaker_load self in
  let v_out := (v1 / 2 + v2 / 4 + v3 / 8) * (L / (R2RNetwork.R self + L)) in
  L <> 0 -> R2RNetwork.R self + L <> 0 ->
  R2RNetwork.calculate_output_voltage self v1 v2 v3
  = Ok (v_out, v_out / L, v_out * (v_out / L)).
Proof.
  intros L v_out HL HRL. subst L v_out.
  unfold R2RNetwork.calculate_output_voltage.
  rewrite thevenin_real. cbn [bind ret Monad_outcome outcome_bind].
  rewrite (truediv_real _ _ HRL). cbn [bind ret Monad_outcome outcome_bind].
  rewrite (truediv_real _ _ HL). reflexivity.
Qed.

(** C3. When the load [L] and the sum [R + L] are not zero,
    [calculate_output_voltage] returns [vOut = vTh * L / (R + L)] for the
    pair [(vTh, R)] of [calculate_thevenin_equivalent], with
    [current = vOut / L] and [power = vOut * current]. *)
Theorem output_voltage_divider :
  forall (self : R2RNetwork.t R) (v1 v2 v3 : R),
    R2RNetwork.speaker_load self <> 0 ->
    R2RNetwork.R self + R2RNetwork.speaker_load self <> 0 ->
    exists v_th v_out current power : R,
      R2RNetwork.calculate_thevenin_equivalent self v1 v2 v3
      = Ok (v_th, R2RNetwork.R self)
      /\ R2RNetwork.calculate_output_voltage self v1 v2 v3
         = Ok (v_out, current, power)
      /\ v_out = v_th * R2RNetwork.speaker_load self
                 / (R2RNetwork.R self + R2RNetwork.speaker_load self)
      /\ current = v_out / R2RNetwork.speaker_load self
      /\ power = v_out * current.
Proof.
  intros self v1 v2 v3 HL HRL.
  eexists _, _, _, _.
  split; [apply thevenin_real |].
  split; [apply output_real; assumption |].
  split; [| split; reflexivity].
  unfold Rdiv. ring.
Qed.

Lemma output_voltage_divider_witness :
  exists r2r : R2RNetwork.t R,
    R2RNetwork.__init__ 2000 = Ok r2r
    /\ exists v_th v_out current power : R,
      R2RNetwork.calculate_thevenin_equivalent r2r 5 0 5 = Ok (v_th, R2RNetwork.R r2r)
      /\ R2RNetwork.calculate_output_voltage r2r 5 0 5 = Ok (v_out, current, power)
      /\ v_out = v_th * R2RNetwork.speaker_load r2r
                 / (R2RNetwork.R r2r + R2RNetwork.speaker_load r2r)
      /\ current = v_out / R2RNetwork.speaker_load r2r
      /\ power = v_out * current.
Proof.
  eexists. split; [reflexivity |].
  apply (output_voltage_divider (R2RNetwork.mk 2000 3 16) 5 0 5); cbn; lra.
Defined.

Lemma output_real_raises (self : R2RNetwork.t R) (v1 v2 v3 : R) :
  R2RNetwork.speaker_load self = 0
  \/ R2RNetwork.R self + R2RNetwork.speaker_load self = 0 ->
  R2RNetwork.calculate_output_voltage self v1 v2 v3 = Raise ZeroDivisionError.
Proof.
  intros Hz.
  unfold R2RNetwork.calculate_output_voltage.
  rewrite thevenin_real. cbn [bind ret Monad_outcome outcome_bind].
  destruct (Req_dec_T (R2RNetwork.R self + R2RNetwork.speaker_load self) 0)
    as [E | N].
  - now rewrite (truediv_real_zero _ _ E).
  - destruct Hz as [HL | HRL]; [| contradiction].
    rewrite (truediv_real _ _ N). cbn [bind ret Monad_outcome outcome_bind].
    now rewrite (truediv_real_zero _ _ HL).
Qed.

(** The share of the Thevenin voltage that reaches the load lies
    strictly between 0 and 1 for positive resistances. *)
Lemma divider_ratio_bounds (r l : R) :
  0 < r -> 0 < l -> 0 < l / (r + l) < 1.
Proof.
  intros Hr Hl.
  assert (Hs : 0 < r + l) by lra.
  split.
  - apply Rdiv_lt_0_compat; assumption.
  - apply (Rmult_lt_reg_r (r + l)); [assumption |].
    unfold Rdiv. rewrite Rmult_assoc, Rinv_l by lra. lra.
Qed.

(** C6. For a positive load and a positive base resistance, and for all
    real inputs, [calculate_output_voltage] returns an output voltage
    whose magnitude is at most that of the Thevenin voltage of the same
    inputs: [0 <= |vOut| <= |vTh|]. *)
Theorem output_voltage_bounded_by_thevenin :
  forall (self : R2RNetwork.t R) (v1 v2 v3 : R),
    0 < R2RNetwork.speaker_load self ->
    0 < R2RNetwork.R self ->
    exists v_th r_th v_out current power : R,
      R2RNetwork.calculate_thevenin_equivalent self v1 v2 v3 = Ok (v_th, r_th)
      /\ R2RNetwork.calculate_output_voltage self v1 v2 v3
         = Ok (v_out, current, power)
      /\ 0 <= Rabs v_out <= Rabs v_th.
Proof.
  intros self v1 v2 v3 HL HR.
  eexists _, _, _, _, _.
  split; [apply thevenin_real |].
  split; [apply output_real; lra |].
  destruct (divider_ratio_bounds _ _ HR HL) as [Hlo Hhi].
  rewrite Rabs_mult, (Rabs_pos_eq (_ / _)) by lra.
  pose proof (Rabs_pos (v1 / 2 + v2 / 4 + v3 / 8)) as Hp.
  split; nra.
Qed.

Lemma output_voltage_bounded_by_thevenin_witness :
  exists v_th r_th v_out current power : R,
    R2RNetwork.calculate_thevenin_equivalent (R2RNetwork.mk 2000 3 16) (-5) 0 5
    = Ok (v_th, r_th)
    /\ R2RNetwork.calculate_output_voltage (R2RNetwork.mk 2000 3 16) (-5) 0 5
       = Ok (v_out, current, power)
    /\ 0 <= Rabs v_out <= Rabs v_th.
Proof.
  apply (output_voltage_bounded_by_thevenin (R2RNetwork.mk 2000 3 16) (-5) 0 5);
    cbn; lra.
Defined.

(** C7. For a positive load and all real inputs, the power that
    [calculate_output_voltage] returns is [vOut * current], is
    [vOut^2 / load], and is not negative; the method does return unless
    the base resistance is the opposite of the load. *)
Theorem power_nonnegative :
  forall (self : R2RNetwork.t R) (v1 v2 v3 : R),
    0 < R2RNetwork.speaker_load self ->
    (R2RNetwork.R self + R2RNetwork.speaker_load self <> 0 ->
     exists v_out current power : R,
       R2RNetwork.calculate_output_voltage self v1 v2 v3
       = Ok (v_out, current, power))
    /\ forall v_out current power : R,
        R2RNetwork.calculate_output_voltage self v1 v2 v3
        = Ok (v_out, current, power) ->
        power = v_out * current
        /\ power = v_out ^ 2 / R2RNetwork.speaker_load self
        /\ 0 <= power.
Proof.
  intros self v1 v2 v3 HL.
  assert (HL0 : R2RNetwork.speaker_load self <> 0) by lra.
  split.
  - intros HRL. eexists _, _, _. apply output_real; assumption.
  - intros v_out current power Hrun.
    destruct (Req_dec_T (R2RNetwork.R self + R2RNetwork.speaker_load self) 0)
      as [E | N].
    + rewrite output_real_raises in Hrun by (right; exact E). discriminate.
    + rewrite output_real in Hrun by assumption.
      injection Hrun as <- <- <-.
      split; [reflexivity |].
      split; [unfold Rdiv; ring |].
      pose proof (Rinv_0_lt_compat _ HL) as Hinv.
      unfold Rdiv. rewrite <- Rmult_assoc.
      apply Rmult_le_pos; [apply Rle_0_sqr | lra].
Qed.

Lemma power_nonnegative_witness :
  (2000 + 16 <> 0 ->
   exists v_out current power : R,
     R2RNetwork.calculate_output_voltage (R2RNetwork.mk 2000 3 16) (-5) 0 5
     = Ok (v_out, current, power))
  /\ forall v_out current power : R,
      R2RNetwork.calculate_output_voltage (R2RNetwork.mk 2000 3 16) (-5) 0 5
      = Ok (v_out, current, power) ->
      power = v_out * current /\ power = v_out ^ 2 / 16 /\ 0 <= power.
Proof.
  apply (power_nonnegative (R2RNetwork.mk 2000 3 16) (-5) 0 5); cbn; lra.
Defined.

(** ** The report *)

(** The first component of what [calculate_output_voltage] returns. *)
Definition returned_v_out (r : R * R * R) : R := fst (fst r).

(** C9. For all real inputs and every network, [display_results] ends
    the way [calculate_output_voltage] does on the same inputs: when the
    latter returns [(vOut, current, power)] the report returns [vOut],
    and when it raises the report raises the same exception. *)
Theorem display_results_returns_output_voltage :
  forall (self : R2RNetwork.t R) (v1 v2 v3 : R) (out : stdout R),
    fst (R2RNetwork.display_results self v1 v2 v3 out)
    = outcome_map returned_v_out
        (R2RNetwork.calculate_output_voltage self v1 v2 v3).
Proof.
  intros self v1 v2 v3 out.
  unfold R2RNetwork.display_results.
  cbn [bind ret Monad_Py Py_bind Py_ret print call].
  rewrite thevenin_real, !truediv_real by (cbn; lra).
  destruct (R2RNetwork.calculate_output_voltage self v1 v2 v3)
    as [[[v_out current] power] | e]; reflexivity.
Qed.

(** The report of a network that can compute: eighteen entries are
    written and the output voltage is returned. *)
Lemma display_results_run (self : R2RNetwork.t R) (v1 v2 v3 : R) (out : stdout R) :
  R2RNetwork.speaker_load self <> 0 ->
  R2RNetwork.R self + R2RNetwork.speaker_load self <> 0 ->
  exists written : stdout R,
    R2RNetwork.display_results self v1 v2 v3 out
    = (Ok ((v1 / 2 + v2 / 4 + v3 / 8)
           * (R2RNetwork.speaker_load self
              / (R2RNetwork.R self + R2RNetwork.speaker_load self))),
       (out ++ written)%list)
    /\ List.length written = 18%nat.
Proof.
  intros HL HRL.
  unfold R2RNetwork.display_results.
  repeat (cbn [bind ret Monad_Py Py_bind Py_ret print call];
          first [ rewrite thevenin_real
                | rewrite truediv_real by (cbn; lra)
                | rewrite output_real by assumption ]).
  cbn [bind ret Monad_Py Py_bind Py_ret print call].
  repeat rewrite <- app_assoc. cbn [app].
  eexists. split; reflexivity.
Qed.

(** ** The first example of the script: all inputs at 5 V *)

(** C5, as stated, fails: with base resistance 2000 and load 16 the
    inputs (5, 5, 5) give an output voltage that is further than 1e-6
    from 0.034781. *)
Lemma scenario1_output_is_not_0_034781 :
  exists (r2r : R2RNetwork.t R) (v_out current power : R),
    R2RNetwork.__init__ 2000 = Ok r2r
    /\ R2RNetwork.calculate_output_voltage r2r 5 5 5 = Ok (v_out, current, power)
    /\ ~ Rabs (v_out - 0.034781) <= 1e-6.
Proof.
  eexists _, _, _, _.
  split; [reflexivity |].
  split; [apply output_real; cbn; lra |].
  cbn [R2RNetwork.R R2RNetwork.speaker_load of_int PyNumber_R].
  intros Habs. unfold Rabs in Habs.
  destruct (Rcase_abs _) in Habs; lra.
Qed.

(** C5, amended. With base resistance 2000 and load 16 the inputs
    (5, 5, 5) give the Thevenin voltage 4.375 exactly and the output
    voltage 4.375 * 16 / (2000 + 16), which is 5/144, that is 0.034722
    to within 1e-6. *)
Theorem scenario1_all_high :
  exists (r2r : R2RNetwork.t R) (v_out current power : R),
    R2RNetwork.__init__ 2000 = Ok r2r
    /\ R2RNetwork.speaker_load r2r = 16
    /\ R2RNetwork.calculate_thevenin_equivalent r2r 5 5 5 = Ok (4.375, 2000)
    /\ R2RNetwork.calculate_output_voltage r2r 5 5 5 = Ok (v_out, current, power)
    /\ v_out = 4.375 * 16 / (2000 + 16)
    /\ v_out = 5 / 144
    /\ Rabs (v_out - 0.034722) <= 1e-6.
Proof.
  eexists _, _, _, _.
  split; [reflexivity |].
  split; [reflexivity |].
  split; [rewrite thevenin_real; cbn [R2RNetwork.R]; do 2 f_equal; lra |].
  split; [apply output_real; cbn; lra |].
  cbn [R2RNetwork.R R2RNetwork.speaker_load of_int PyNumber_R].
  split; [lra |].
  split; [lra |].
  unfold Rabs. destruct (Rcase_abs _); lra.
Qed.

(** ** Construction *)

(** C8, as stated, fails: the base resistance -16 is not positive and
    its sum with the load is zero, yet the constructor returns a network,
    and the division by zero happens later, in [calculate_output_voltage]. *)
Lemma constructor_accepts_minus_16 :
  exists r2r : R2RNetwork.t R,
    R2RNetwork.__init__ (-16) = Ok r2r
    /\ R2RNetwork.R r2r <= 0
    /\ R2RNetwork.R r2r + R2RNetwork.speaker_load r2r = 0
    /\ R2RNetwork.calculate_output_voltage r2r 5 5 5 = Raise ZeroDivisionError.
Proof.
  eexists. split; [reflexivity |].
  cbn [R2RNetwork.R R2RNetwork.speaker_load of_int PyNumber_R].
  split; [lra |].
  split; [lra |].
  apply output_real_raises. right. cbn. lra.
Qed.

(** C8, amended. The constructor rejects nothing: for every base
    resistance it returns a network that holds this resistance, three
    bits and the load 16.  A load of zero or a sum of base resistance and
    load of zero shows only when [calculate_output_voltage] is called,
    which then raises [ZeroDivisionError]. *)
Theorem constructor_performs_no_validation :
  (forall r_value : R,
      R2RNetwork.__init__ r_value
      = Ok {| R2RNetwork.R := r_value;
              R2RNetwork.num_bits := 3;
              R2RNetwork.speaker_load := 16 |})
  /\ (forall (self : R2RNetwork.t R) (v1 v2 v3 : R),
         R2RNetwork.speaker_load self = 0
         \/ R2RNetwork.R self + R2RNetwork.speaker_load self = 0 ->
         R2RNetwork.calculate_output_voltage self v1 v2 v3
         = Raise ZeroDivisionError).
Proof.
  split.
  - intros r_value. reflexivity.
  - intros self v1 v2 v3 Hz. apply output_real_raises. exact Hz.
Qed.

Lemma constructor_performs_no_validation_witness :
  R2RNetwork.__init__ 0 = Ok (R2RNetwork.mk 0 3 16)
  /\ R2RNetwork.calculate_output_voltage (R2RNetwork.mk 3 3 0) 5 0 5
     = Raise ZeroDivisionError
  /\ R2RNetwork.calculate_output_voltage (R2RNetwork.mk (-16) 3 16) 5 0 5
     = Raise ZeroDivisionError.
Proof.
  destruct constructor_performs_no_validation as [Hinit Hraise].
  split; [apply (Hinit 0) |].
  split.
  - apply (Hraise (R2RNetwork.mk 3 3 0) 5 0 5). left. reflexivity.
  - apply (Hraise (R2RNetwork.mk (-16) 3 16) 5 0 5). right. cbn. lra.
Defined.

(** ** The truth table *)

(** A mask with one bit tests that bit. *)
Lemma mask_tests_bit (i k : Z) :
  (0 <= k)%Z -> truthy (Z.land i (2 ^ k)) = Z.testbit i k.
Proof.
  intros Hk. unfold truthy.
  destruct (Z.testbit i k) eqn:Ebit.
  - destruct (Z.eqb_spec (Z.land i (2 ^ k)) 0) as [E0 | _]; [| reflexivity].
    assert (Hset : Z.testbit (Z.land i (2 ^ k)) k = true).
    { rewrite Z.land_spec, Ebit, Z.pow2_bits_eqb, Z.eqb_refl by assumption.
      reflexivity. }
    rewrite E0, Z.bits_0 in Hset. discriminate.
  - assert (E0 : Z.land i (2 ^ k) = 0%Z).
    { apply Z.bits_inj'. intros n _.
      rewrite Z.land_spec, Z.bits_0, Z.pow2_bits_eqb by assumption.
      destruct (Z.eqb_spec k n) as [<- | _].
      - rewrite Ebit. reflexivity.
      - apply andb_false_r. }
    rewrite E0. reflexivity.
Qed.

(** Following the specification: the logic level of bit [k] of [i], the
    high voltage 5 when the bit is set and the low voltage 0 otherwise. *)
Definition bit_level (i k : Z) : R := if Z.testbit i k then 5 else 0.

(** Following the specification: the bit patterns in ascending order. *)
Definition bit_patterns : list string :=
  ["000"; "001"; "010"; "011"; "100"; "101"; "110"; "111"].

Lemma five_volts : decimal 50 10 = (5 :> R).
Proof. rewrite decimal_real. lra. Qed.

Lemma zero_volts : decimal 0 10 = (0 :> R).
Proof. rewrite decimal_real. lra. Qed.

Lemma level_of_mask (i k : Z) :
  (0 <= k)%Z ->
  (if truthy (Z.land i (2 ^ k)) then decimal 50 10 else decimal 0 10)
  = bit_level i k.
Proof.
  intros Hk. rewrite mask_tests_bit by assumption. unfold bit_level.
  destruct (Z.testbit i k); [apply five_volts | apply zero_volts].
Qed.

(** What one pass of the loop body writes. *)
Definition expected_row (r2r : R2RNetwork.t R) (i : Z) : list (piece R) :=
  let L := R2RNetwork.speaker_load r2r in
  row_line (bit_level i 2) (bit_level i 1) (bit_level i 0)
    ((bit_level i 2 / 2 + bit_level i 1 / 4 + bit_level i 0 / 8)
     * (L / (R2RNetwork.R r2r + L)))
    (format_0b 3 i).

Lemma truth_table_row_real (r2r : R2RNetwork.t R) (i : Z) (out : stdout R) :
  R2RNetwork.speaker_load r2r <> 0 ->
  R2RNetwork.R r2r + R2RNetwork.speaker_load r2r <> 0 ->
  truth_table_row r2r i out = (Ok tt, (out ++ [expected_row r2r i])%list).
Proof.
  intros HL HRL. unfold truth_table_row.
  pose proof (level_of_mask i 2) as H2. change (2 ^ 2)%Z with 4%Z in H2.
  pose proof (level_of_mask i 1) as H1. change (2 ^ 1)%Z with 2%Z in H1.
  pose proof (level_of_mask i 0) as H0. change (2 ^ 0)%Z with 1%Z in H0.
  rewrite H2, H1, H0 by lia.
  cbn [bind ret Monad_Py Py_bind Py_ret call].
  rewrite output_real by assumption.
  reflexivity.
Qed.

(** A loop whose body only appends one entry appends one entry per item. *)
Lemma for_in_appends {T : Type} (body : Z -> Py T unit)
      (entry : Z -> list (piece T)) (l : list Z) :
  (forall i out, In i l -> body i out = (Ok tt, (out ++ [entry i])%list)) ->
  forall out, for_in l body out = (Ok tt, (out ++ map entry l)%list).
Proof.
  induction l as [| i l IH]; intros Hbody out.
  - cbn. now rewrite app_nil_r.
  - change (for_in (i :: l) body out)
      with (Py_bind (body i) (fun _ => for_in l body) out).
    unfold Py_bind. cbn [map].
    rewrite Hbody by (left; reflexivity).
    rewrite IH by (intros j o Hj; apply Hbody; right; exact Hj).
    now rewrite <- app_assoc.
Qed.

Lemma truth_table_real (r2r : R2RNetwork.t R) (out : stdout R) :
  R2RNetwork.speaker_load r2r <> 0 ->
  R2RNetwork.R r2r + R2RNetwork.speaker_load r2r <> 0 ->
  truth_table r2r out = (Ok tt, (out ++ map (expected_row r2r) (range 8))%list).
Proof.
  intros HL HRL. unfold truth_table.
  apply for_in_appends. intros i o _. now apply truth_table_row_real.
Qed.

Lemma below_8 (i : Z) :
  (0 <= i < 8)%Z ->
  i = 0%Z \/ i = 1%Z \/ i = 2%Z \/ i = 3%Z \/ i = 4%Z \/ i = 5%Z \/ i = 6%Z
  \/ i = 7%Z.
Proof. lia. Qed.

(** Splits a goal about a row index below 8 into its eight cases. *)
Ltac each_row H :=
  apply below_8 in H;
  destruct H as [-> | [-> | [-> | [-> | [-> | [-> | [-> | ->]]]]]]].

(** C4. The loop of the script writes exactly 8 rows, and it writes
    them in ascending order of [i]: the row at position [i], for [i] from
    0 to 7, is made of nine pieces, which are the voltages [v1], [v2],
    [v3] given by bits 2, 1 and 0 of [i] (5 V for a set bit, 0 V
    otherwise) in this order, each in a field of 6 with one decimal, the
    output voltage that [calculate_output_voltage] returns for them in a
    field of 12 with six decimals, and the bit pattern of [i] on three
    digits, "000" to "111", after three spaces, with the separators of
    the source between them. *)
Theorem truth_table_enumeration :
  forall (r2r : R2RNetwork.t R) (out : stdout R),
    R2RNetwork.speaker_load r2r <> 0 ->
    R2RNetwork.R r2r + R2RNetwork.speaker_load r2r <> 0 ->
    exists rows : stdout R,
      truth_table r2r out = (Ok tt, (out ++ rows)%list)
      /\ List.length rows = 8%nat
      /\ forall i : Z, (0 <= i < 8)%Z ->
          exists v_out current power : R,
            R2RNetwork.calculate_output_voltage r2r
              (bit_level i 2) (bit_level i 1) (bit_level i 0)
            = Ok (v_out, current, power)
            /\ nth_error rows (Z.to_nat i)
               = Some [Fixed 6 1 (bit_level i 2); Text " ";
                       Fixed 6 1 (bit_level i 1); Text " ";
                       Fixed 6 1 (bit_level i 0); Text " | ";
                       Fixed 12 6 v_out; Text " | ";
                       Text ("   " ++ nth (Z.to_nat i) bit_patterns "")].
Proof.
  intros r2r out HL HRL.
  exists (map (expected_row r2r) (range 8)).
  split; [now apply truth_table_real |].
  split; [reflexivity |].
  intros i Hi. eexists _, _, _.
  split; [now apply output_real |].
  each_row Hi; reflexivity.
Qed.

Lemma truth_table_enumeration_witness :
  exists rows : stdout R,
    truth_table (R2RNetwork.mk 2000 3 16) [] = (Ok tt, ([] ++ rows)%list)
    /\ List.length rows = 8%nat
    /\ forall i : Z, (0 <= i < 8)%Z ->
        exists v_out current power : R,
          R2RNetwork.calculate_output_voltage (R2RNetwork.mk 2000 3 16)
            (bit_level i 2) (bit_level i 1) (bit_level i 0)
          = Ok (v_out, current, power)
          /\ nth_error rows (Z.to_nat i)
             = Some [Fixed 6 1 (bit_level i 2); Text " ";
                     Fixed 6 1 (bit_level i 1); Text " ";
                     Fixed 6 1 (bit_level i 0); Text " | ";
                     Fixed 12 6 v_out; Text " | ";
                     Text ("   " ++ nth (Z.to_nat i) bit_patterns "")].
Proof.
  apply (truth_table_enumeration (R2RNetwork.mk 2000 3 16) []); cbn; lra.
Defined.

(** Following the claim: the output voltage of row [i] for the base
    resistance [Rb], the load 16 and the logic levels 5 and 0. *)
Definition row_v_out (Rb : R) (i : Z) : R := 5 * IZR i / 8 * 16 / (Rb + 16).

Lemma row_v_out_real (Rb : R) (i : Z) :
  Rb + 16 <> 0 -> (0 <= i < 8)%Z ->
  (bit_level i 2 / 2 + bit_level i 1 / 4 + bit_level i 0 / 8) * (16 / (Rb + 16))
  = row_v_out Rb i.
Proof.
  intros HRb Hi. unfold row_v_out.
  each_row Hi; unfold bit_level;
    cbn [Z.testbit Z.odd Pos.testbit Pos.pred_N Pos.pred_double];
    field; exact HRb.
Qed.

(** C10. For every positive base resistance [Rb], with the load 16 of
    the constructor and the logic levels 5 and 0 of the script, row [i]
    of the truth table has the output voltage
    [(5 * i / 8) * 16 / (Rb + 16)]: this is what
    [calculate_output_voltage] returns for the row's inputs and what the
    loop body writes.  It increases strictly with [i] over 0..7. *)
Theorem truth_table_output_increasing :
  forall Rb : R,
    0 < Rb ->
    exists r2r : R2RNetwork.t R,
      R2RNetwork.__init__ Rb = Ok r2r
      /\ (forall i : Z, (0 <= i < 8)%Z ->
            (exists current power : R,
                R2RNetwork.calculate_output_voltage r2r
                  (bit_level i 2) (bit_level i 1) (bit_level i 0)
                = Ok (row_v_out Rb i, current, power))
            /\ forall out : stdout R,
                truth_table_row r2r i out
                = (Ok tt,
                   (out ++ [row_line (bit_level i 2) (bit_level i 1)
                              (bit_level i 0) (row_v_out Rb i)
                              (format_0b 3 i)])%list))
      /\ (forall i j : Z, (0 <= i < j)%Z -> (j < 8)%Z ->
            row_v_out Rb i < row_v_out Rb j).
Proof.
  intros Rb HRb.
  eexists. split; [reflexivity |].
  assert (HL : (16 : R) <> 0) by lra.
  assert (HRL : Rb + 16 <> 0) by lra.
  split.
  - intros i Hi. split.
    + eexists _, _. rewrite output_real by assumption.
      cbn [R2RNetwork.R R2RNetwork.speaker_load of_int PyNumber_R].
      rewrite row_v_out_real by assumption. reflexivity.
    + intros out. rewrite truth_table_row_real by assumption.
      unfold expected_row.
      cbn [R2RNetwork.R R2RNetwork.speaker_load of_int PyNumber_R].
      rewrite row_v_out_real by assumption. reflexivity.
  - intros i j Hij Hj. unfold row_v_out.
    assert (Hinv : 0 < / (Rb + 16)) by (apply Rinv_0_lt_compat; lra).
    assert (Hlt : IZR i < IZR j) by (apply IZR_lt; lia).
    unfold Rdiv. nra.
Qed.

Lemma truth_table_output_increasing_witness :
  exists r2r : R2RNetwork.t R,
    R2RNetwork.__init__ 2000 = Ok r2r
    /\ (forall i : Z, (0 <= i < 8)%Z ->
          (exists current power : R,
              R2RNetwork.calculate_output_voltage r2r
                (bit_level i 2) (bit_level i 1) (bit_level i 0)
              = Ok (row_v_out 2000 i, current, power))
          /\ forall out : stdout R,
              truth_table_row r2r i out
              = (Ok tt,
                 (out ++ [row_line (bit_level i 2) (bit_level i 1)
                            (bit_level i 0) (row_v_out 2000 i)
                            (format_0b 3 i)])%list))
    /\ (forall i j : Z, (0 <= i < j)%Z -> (j < 8)%Z ->
          row_v_out 2000 i < row_v_out 2000 j).
Proof.
  apply (truth_table_output_increasing 2000). lra.
Defined.

(** * Runs in binary64

    The same methods at the [float] of CPython, on the inputs of the
    script.  Decimal constants that binary64 cannot hold are written as
    quotients, which round to the nearest float as the literals do. *)

Local Close Scope R_scope.
Local Open Scope float_scope.

(** The first example: the Thevenin voltage is 4.375 with no rounding,
    and the output voltage is within 1e-6 of 0.034722 and not of
    0.034781. *)
Lemma scenario1_binary64 :
  exists (r2r : R2RNetwork.t float) (v_out current power : float),
    R2RNetwork.__init__ 2000 = Ok r2r
    /\ R2RNetwork.calculate_thevenin_equivalent r2r 5 5 5 = Ok (4.375, 2000)
    /\ R2RNetwork.calculate_output_voltage r2r 5 5 5 = Ok (v_out, current, power)
    /\ (abs (v_out - decimal 34722 1000000) <=? decimal 1 1000000) = true
    /\ (abs (v_out - decimal 34781 1000000) <=? decimal 1 1000000) = false.
Proof.
  eexists _, _, _, _.
  split; [reflexivity |].
  split; [vm_compute; reflexivity |].
  split; [vm_compute; reflexivity |].
  split; vm_compute; reflexivity.
Qed.

(** The base resistance -16 is accepted in binary64 as well, and the
    division by zero is raised by the first computation. *)
Lemma constructor_accepts_minus_16_binary64 :
  R2RNetwork.__init__ (-16) = Ok (R2RNetwork.mk (-16) 3 16)
  /\ R2RNetwork.calculate_output_voltage (R2RNetwork.mk (-16) 3 16) 5 5 5
     = Raise ZeroDivisionError.
Proof. split; vm_compute; reflexivity. Qed.

(** The script runs to its end and writes 71 entries, the last nine of
    which are the eight rows and the closing banner. *)
Lemma main_binary64 :
  fst (main (T := float) []) = Ok tt
  /\ List.length (snd (main (T := float) [])) = 71%nat.
Proof. split; vm_compute; reflexivity. Qed.

(** The patterns written by the loop are the eight of the specification. *)
Lemma format_0b_patterns : map (format_0b 3) (range 8) = bit_patterns.
Proof. reflexivity. Qed.

(** * Further properties of the model, over the real numbers *)

Local Close Scope float_scope.
Local Open Scope R_scope.

(** ** The ladder is linear *)

(** X1. The Thevenin voltage of a linear combination of two input triples is
    the same combination of their Thevenin voltages (superposition and
    scaling at once). *)
Theorem thevenin_voltage_linear :
  forall (self : R2RNetwork.t R) (a b v1 v2 v3 w1 w2 w3 : R),
    exists x y : R,
      outcome_map fst (R2RNetwork.calculate_thevenin_equivalent self v1 v2 v3)
      = Ok x
      /\ outcome_map fst (R2RNetwork.calculate_thevenin_equivalent self w1 w2 w3)
         = Ok y
      /\ outcome_map fst
           (R2RNetwork.calculate_thevenin_equivalent self
              (a * v1 + b * w1) (a * v2 + b * w2) (a * v3 + b * w3))
         = Ok (a * x + b * y).
Proof.
  intros self a b v1 v2 v3 w1 w2 w3.
  rewrite !thevenin_real. cbn [outcome_map fst].
  eexists _, _. split; [reflexivity |]. split; [reflexivity |].
  f_equal. lra.
Qed.

(** X2. Over the reals, that is in exact arithmetic: for a network that
    can compute, the output voltage and the current of a linear
    combination of two input triples are the same combination of their
    output voltages and currents.  (In binary64 the two sides can differ
    in the last bit, see [additivity_is_rounded_binary64].) *)
Theorem output_voltage_linear :
  forall (self : R2RNetwork.t R) (a b v1 v2 v3 w1 w2 w3 : R),
    R2RNetwork.speaker_load self <> 0 ->
    R2RNetwork.R self + R2RNetwork.speaker_load self <> 0 ->
    exists x cx px y cy py pz : R,
      R2RNetwork.calculate_output_voltage self v1 v2 v3 = Ok (x, cx, px)
      /\ R2RNetwork.calculate_output_voltage self w1 w2 w3 = Ok (y, cy, py)
      /\ R2RNetwork.calculate_output_voltage self
           (a * v1 + b * w1) (a * v2 + b * w2) (a * v3 + b * w3)
         = Ok (a * x + b * y, a * cx + b * cy, pz).
Proof.
  intros self a b v1 v2 v3 w1 w2 w3 HL HRL.
  rewrite !output_real by assumption.
  eexists _, _, _, _, _, _, _.
  split; [reflexivity |]. split; [reflexivity |].
  f_equal. f_equal. f_equal.
  - field. assumption.
  - field. split; assumption.
Qed.

Lemma output_voltage_linear_witness :
  exists x cx px y cy py pz : R,
    R2RNetwork.calculate_output_voltage (R2RNetwork.mk 2000 3 16) 5 0 0
    = Ok (x, cx, px)
    /\ R2RNetwork.calculate_output_voltage (R2RNetwork.mk 2000 3 16) 0 0 5
       = Ok (y, cy, py)
    /\ R2RNetwork.calculate_output_voltage (R2RNetwork.mk 2000 3 16)
         (1 * 5 + 1 * 0) (1 * 0 + 1 * 0) (1 * 0 + 1 * 5)
       = Ok (1 * x + 1 * y, 1 * cx + 1 * cy, pz).
Proof.
  apply (output_voltage_linear (R2RNetwork.mk 2000 3 16) 1 1 5 0 0 0 0 5);
    cbn; lra.
Defined.

(** X3. Over the reals, that is in exact arithmetic: scaling the three
    inputs by [a] scales the power by [a^2].  (In binary64 up to
    rounding only, see [power_scaling_is_rounded_binary64].) *)
Theorem power_scales_quadratically :
  forall (self : R2RNetwork.t R) (a v1 v2 v3 : R),
    R2RNetwork.speaker_load self <> 0 ->
    R2RNetwork.R self + R2RNetwork.speaker_load self <> 0 ->
    exists x c p y d : R,
      R2RNetwork.calculate_output_voltage self v1 v2 v3 = Ok (x, c, p)
      /\ R2RNetwork.calculate_output_voltage self (a * v1) (a * v2) (a * v3)
         = Ok (y, d, a ^ 2 * p).
Proof.
  intros self a v1 v2 v3 HL HRL.
  rewrite !output_real by assumption.
  eexists _, _, _, _, _.
  split; [reflexivity |].
  f_equal. f_equal. field. split; assumption.
Qed.

Lemma power_scales_quadratically_witness :
  exists x c p y d : R,
    R2RNetwork.calculate_output_voltage (R2RNetwork.mk 2000 3 16) 5 0 5
    = Ok (x, c, p)
    /\ R2RNetwork.calculate_output_voltage (R2RNetwork.mk 2000 3 16)
         (2 * 5) (2 * 0) (2 * 5)
       = Ok (y, d, 2 ^ 2 * p).
Proof.
  apply (power_scales_quadratically (R2RNetwork.mk 2000 3 16) 2 5 0 5);
    cbn; lra.
Defined.

(** ** The circuit laws the returned values obey *)

(** X4. Over the reals, that is in exact arithmetic: for a network that
    can compute, the current returned is the Thevenin voltage over the
    series resistance [R + L], the drops across [R] and the load add up
    to the Thevenin voltage, and the power is [current^2 * L].  (In
    binary64 up to rounding only, see [voltage_drops_are_rounded_binary64].) *)
Theorem output_obeys_circuit_laws :
  forall (self : R2RNetwork.t R) (v1 v2 v3 : R),
    R2RNetwork.speaker_load self <> 0 ->
    R2RNetwork.R self + R2RNetwork.speaker_load self <> 0 ->
    exists v_th v_out current power : R,
      R2RNetwork.calculate_thevenin_equivalent self v1 v2 v3
      = Ok (v_th, R2RNetwork.R self)
      /\ R2RNetwork.calculate_output_voltage self v1 v2 v3
         = Ok (v_out, current, power)
      /\ current = v_th / (R2RNetwork.R self + R2RNetwork.speaker_load self)
      /\ current * R2RNetwork.R self + v_out = v_th
      /\ power = current ^ 2 * R2RNetwork.speaker_load self.
Proof.
  intros self v1 v2 v3 HL HRL.
  rewrite thevenin_real, output_real by assumption.
  eexists _, _, _, _.
  split; [reflexivity |]. split; [reflexivity |].
  repeat split; field; try split; assumption.
Qed.

Lemma output_obeys_circuit_laws_witness :
  exists v_th v_out current power : R,
    R2RNetwork.calculate_thevenin_equivalent (R2RNetwork.mk 2000 3 16) 5 0 5
    = Ok (v_th, 2000)
    /\ R2RNetwork.calculate_output_voltage (R2RNetwork.mk 2000 3 16) 5 0 5
       = Ok (v_out, current, power)
    /\ current = v_th / (2000 + 16)
    /\ current * 2000 + v_out = v_th
    /\ power = current ^ 2 * 16.
Proof.
  apply (output_obeys_circuit_laws (R2RNetwork.mk 2000 3 16) 5 0 5); cbn; lra.
Defined.

(** ** Range and ordering of the output *)

(** X5. Over the reals, that is in exact arithmetic: with positive
    resistances and the three inputs between 0 and a reference [V], the
    Thevenin voltage stays between 0 and [7/8 * V] and the output voltage
    between 0 and the Thevenin voltage: the converter never reaches the
    reference.  (In binary64 the bound [7/8 * V] can be passed by one
    unit in the last place, see [full_scale_is_rounded_binary64].) *)
Theorem output_within_full_scale :
  forall (self : R2RNetwork.t R) (V v1 v2 v3 : R),
    0 < R2RNetwork.speaker_load self ->
    0 < R2RNetwork.R self ->
    0 <= v1 <= V -> 0 <= v2 <= V -> 0 <= v3 <= V ->
    exists v_th v_out current power : R,
      R2RNetwork.calculate_thevenin_equivalent self v1 v2 v3
      = Ok (v_th, R2RNetwork.R self)
      /\ R2RNetwork.calculate_output_voltage self v1 v2 v3
         = Ok (v_out, current, power)
      /\ 0 <= v_th <= 7 / 8 * V
      /\ 0 <= v_out <= v_th.
Proof.
  intros self V v1 v2 v3 HL HR H1 H2 H3.
  rewrite thevenin_real, output_real by lra.
  eexists _, _, _, _.
  split; [reflexivity |]. split; [reflexivity |].
  destruct (divider_ratio_bounds _ _ HR HL) as [Hlo Hhi].
  split; [lra |]. split; nra.
Qed.

Lemma output_within_full_scale_witness :
  exists v_th v_out current power : R,
    R2RNetwork.calculate_thevenin_equivalent (R2RNetwork.mk 2000 3 16) 5 0 5
    = Ok (v_th, 2000)
    /\ R2RNetwork.calculate_output_voltage (R2RNetwork.mk 2000 3 16) 5 0 5
       = Ok (v_out, current, power)
    /\ 0 <= v_th <= 7 / 8 * 5
    /\ 0 <= v_out <= v_th.
Proof.
  apply (output_within_full_scale (R2RNetwork.mk 2000 3 16) 5 5 0 5);
    cbn; lra.
Defined.

(** X6. With positive resistances, raising any of the three inputs never
    lowers the output voltage. *)
Theorem output_voltage_monotone :
  forall (self : R2RNetwork.t R) (v1 v2 v3 w1 w2 w3 : R),
    0 < R2RNetwork.speaker_load self ->
    0 < R2RNetwork.R self ->
    v1 <= w1 -> v2 <= w2 -> v3 <= w3 ->
    exists x cx px y cy py : R,
      R2RNetwork.calculate_output_voltage self v1 v2 v3 = Ok (x, cx, px)
      /\ R2RNetwork.calculate_output_voltage self w1 w2 w3 = Ok (y, cy, py)
      /\ x <= y.
Proof.
  intros self v1 v2 v3 w1 w2 w3 HL HR H1 H2 H3.
  rewrite !output_real by lra.
  eexists _, _, _, _, _, _.
  split; [reflexivity |]. split; [reflexivity |].
  destruct (divider_ratio_bounds _ _ HR HL) as [Hlo _].
  apply Rmult_le_compat_r; lra.
Qed.

Lemma output_voltage_monotone_witness :
  exists x cx px y cy py : R,
    R2RNetwork.calculate_output_voltage (R2RNetwork.mk 2000 3 16) 0 5 0
    = Ok (x, cx, px)
    /\ R2RNetwork.calculate_output_voltage (R2RNetwork.mk 2000 3 16) 5 5 0
       = Ok (y, cy, py)
    /\ x <= y.
Proof.
  apply (output_voltage_monotone (R2RNetwork.mk 2000 3 16) 0 5 0 5 5 0);
    cbn; lra.
Defined.

(** X7. Over the reals, that is in exact arithmetic: the most significant
    input outweighs the other two together.  With positive resistances
    and inputs at the levels [lo < hi], a triple whose first input is
    high gives a strictly larger output than any triple whose first input
    is low.  (In binary64 two levels one unit in the last place apart can
    give the same output, see [close_levels_merge_binary64].) *)
Theorem msb_dominates :
  forall (self : R2RNetwork.t R) (lo hi v2 v3 w2 w3 : R),
    0 < R2RNetwork.speaker_load self ->
    0 < R2RNetwork.R self ->
    lo < hi ->
    lo <= v2 <= hi -> lo <= v3 <= hi -> lo <= w2 <= hi -> lo <= w3 <= hi ->
    exists x cx px y cy py : R,
      R2RNetwork.calculate_output_voltage self lo v2 v3 = Ok (x, cx, px)
      /\ R2RNetwork.calculate_output_voltage self hi w2 w3 = Ok (y, cy, py)
      /\ x < y.
Proof.
  intros self lo hi v2 v3 w2 w3 HL HR Hlh Hv2 Hv3 Hw2 Hw3.
  rewrite !output_real by lra.
  eexists _, _, _, _, _, _.
  split; [reflexivity |]. split; [reflexivity |].
  destruct (divider_ratio_bounds _ _ HR HL) as [Hlo _].
  apply Rmult_lt_compat_r; lra.
Qed.

Lemma msb_dominates_witness :
  exists x cx px y cy py : R,
    R2RNetwork.calculate_output_voltage (R2RNetwork.mk 2000 3 16) 0 5 5
    = Ok (x, cx, px)
    /\ R2RNetwork.calculate_output_voltage (R2RNetwork.mk 2000 3 16) 5 0 0
       = Ok (y, cy, py)
    /\ x < y.
Proof.
  apply (msb_dominates (R2RNetwork.mk 2000 3 16) 0 5 5 5 0 0); cbn; lra.
Defined.

(** X8. Of two networks with the same positive load, the one with the
    larger (positive) base resistance gives the output of smaller
    magnitude for the same inputs. *)
Theorem larger_base_resistance_lowers_output :
  forall (n1 n2 : R2RNetwork.t R) (v1 v2 v3 : R),
    R2RNetwork.speaker_load n1 = R2RNetwork.speaker_load n2 ->
    0 < R2RNetwork.speaker_load n1 ->
    0 < R2RNetwork.R n1 <= R2RNetwork.R n2 ->
    exists x cx px y cy py : R,
      R2RNetwork.calculate_output_voltage n1 v1 v2 v3 = Ok (x, cx, px)
      /\ R2RNetwork.calculate_output_voltage n2 v1 v2 v3 = Ok (y, cy, py)
      /\ Rabs y <= Rabs x.
Proof.
  intros n1 n2 v1 v2 v3 HLeq HL HR.
  rewrite !output_real by lra.
  eexists _, _, _, _, _, _.
  split; [reflexivity |]. split; [reflexivity |].
  rewrite <- HLeq.
  set (L := R2RNetwork.speaker_load n1) in *.
  assert (HR2 : 0 < R2RNetwork.R n2) by lra.
  destruct (divider_ratio_bounds _ _ (proj1 HR) HL) as [Hlo1 _].
  destruct (divider_ratio_bounds _ _ HR2 HL) as [Hlo2 _].
  rewrite !Rabs_mult, !(Rabs_pos_eq (L / _)) by lra.
  apply Rmult_le_compat_l; [apply Rabs_pos |].
  unfold Rdiv. apply Rmult_le_compat_l; [lra |].
  apply Rinv_le_contravar; lra.
Qed.

Lemma larger_base_resistance_lowers_output_witness :
  exists x cx px y cy py : R,
    R2RNetwork.calculate_output_voltage (R2RNetwork.mk 2000 3 16) 5 0 5
    = Ok (x, cx, px)
    /\ R2RNetwork.calculate_output_voltage (R2RNetwork.mk 10000 3 16) 5 0 5
       = Ok (y, cy, py)
    /\ Rabs y <= Rabs x.
Proof.
  apply (larger_base_resistance_lowers_output
           (R2RNetwork.mk 2000 3 16) (R2RNetwork.mk 10000 3 16) 5 0 5);
    cbn; lra.
Defined.

(** ** When the computation fails *)

(** X9. [calculate_output_voltage] raises exactly when the load is zero or
    the base resistance is the opposite of the load, whatever the input
    voltages; otherwise it returns. *)
Theorem output_raises_iff_zero_denominator :
  forall (self : R2RNetwork.t R) (v1 v2 v3 : R),
    R2RNetwork.calculate_output_voltage self v1 v2 v3 = Raise ZeroDivisionError
    <-> (R2RNetwork.speaker_load self = 0
         \/ R2RNetwork.R self + R2RNetwork.speaker_load self = 0).
Proof.
  intros self v1 v2 v3. split.
  - intros Hraise.
    destruct (Req_dec_T (R2RNetwork.speaker_load self) 0) as [HL | HL];
      [left; exact HL |].
    destruct (Req_dec_T (R2RNetwork.R self + R2RNetwork.speaker_load self) 0)
      as [HRL | HRL]; [right; exact HRL |].
    rewrite output_real in Hraise by assumption. discriminate.
  - apply output_real_raises.
Qed.

Lemma output_raises_iff_zero_denominator_witness :
  R2RNetwork.calculate_output_voltage (R2RNetwork.mk 7 3 0) 5 0 5
  = Raise ZeroDivisionError.
Proof.
  apply (proj2 (output_raises_iff_zero_denominator (R2RNetwork.mk 7 3 0) 5 0 5)).
  left. reflexivity.
Defined.

(** X10. A network built by the constructor fails to compute for one base
    resistance only, -16; for any other, positive or not, it returns. *)
Theorem constructed_network_fails_only_at_minus_16 :
  forall r_value v1 v2 v3 : R,
    exists r2r : R2RNetwork.t R,
      R2RNetwork.__init__ r_value = Ok r2r
      /\ (r_value = -16 ->
          R2RNetwork.calculate_output_voltage r2r v1 v2 v3
          = Raise ZeroDivisionError)
      /\ (r_value <> -16 ->
          exists v_out current power : R,
            R2RNetwork.calculate_output_voltage r2r v1 v2 v3
            = Ok (v_out, current, power)).
Proof.
  intros r_value v1 v2 v3.
  eexists. split; [reflexivity |]. split.
  - intros ->. apply output_real_raises. right. cbn. lra.
  - intros Hr. eexists _, _, _. apply output_real; cbn; lra.
Qed.

Lemma constructed_network_fails_only_at_minus_16_witness :
  R2RNetwork.calculate_output_voltage (R2RNetwork.mk (-16) 3 16) 5 0 5
  = Raise ZeroDivisionError
  /\ exists v_out current power : R,
      R2RNetwork.calculate_output_voltage (R2RNetwork.mk (-2000) 3 16) 5 0 5
      = Ok (v_out, current, power).
Proof.
  split.
  - destruct (constructed_network_fails_only_at_minus_16 (-16) 5 0 5)
      as [r2r [Hinit [Hfail _]]].
    injection Hinit as <-. apply Hfail. reflexivity.
  - destruct (constructed_network_fails_only_at_minus_16 (-2000) 5 0 5)
      as [r2r [Hinit [_ Hok]]].
    injection Hinit as <-. apply Hok. lra.
Defined.

(** ** What the report writes *)

(** The entries [display_results] writes on an empty output. *)
Definition report_entries (self : R2RNetwork.t R) (v1 v2 v3 : R) : stdout R :=
  snd (R2RNetwork.display_results self v1 v2 v3 []).

(** Runs the report up to the call of [calculate_output_voltage]. *)
Ltac run_report :=
  unfold report_entries, R2RNetwork.display_results;
  repeat (cbn [bind ret Monad_Py Py_bind Py_ret print call fst snd];
          first [ rewrite thevenin_real
                | rewrite truediv_real by (cbn; lra) ]);
  cbn [bind ret Monad_Py Py_bind Py_ret print call fst snd].

Lemma display_results_frame (self : R2RNetwork.t R) (v1 v2 v3 : R)
      (out : stdout R) :
  R2RNetwork.display_results self v1 v2 v3 out
  = (fst (R2RNetwork.display_results self v1 v2 v3 []),
     (out ++ report_entries self v1 v2 v3)%list).
Proof.
  run_report.
  destruct (R2RNetwork.calculate_output_voltage self v1 v2 v3)
    as [[[v_out current] power] | e];
    cbn [bind ret Monad_Py Py_bind Py_ret print call fst snd];
    repeat rewrite <- app_assoc; reflexivity.
Qed.

Lemma display_results_ok (self : R2RNetwork.t R) (v1 v2 v3 : R)
      (out : stdout R) :
  R2RNetwork.speaker_load self <> 0 ->
  R2RNetwork.R self + R2RNetwork.speaker_load self <> 0 ->
  R2RNetwork.display_results self v1 v2 v3 out
  = (Ok ((v1 / 2 + v2 / 4 + v3 / 8)
         * (R2RNetwork.speaker_load self
            / (R2RNetwork.R self + R2RNetwork.speaker_load self))),
     (out ++ report_entries self v1 v2 v3)%list).
Proof.
  intros HL HRL. rewrite display_results_frame. f_equal.
  run_report. now rewrite output_real by assumption.
Qed.

(** X11. The report only appends: what was written before the call is kept
    as it is, and neither the outcome nor the entries written depend on
    it.  This holds when the report raises as well. *)
Theorem display_results_appends :
  forall (self : R2RNetwork.t R) (v1 v2 v3 : R) (out : stdout R),
    R2RNetwork.display_results self v1 v2 v3 out
    = (fst (R2RNetwork.display_results self v1 v2 v3 []),
       (out ++ snd (R2RNetwork.display_results self v1 v2 v3 []))%list).
Proof.
  intros self v1 v2 v3 out. apply display_results_frame.
Qed.

(** X12. The report of a network that cannot compute raises
    [ZeroDivisionError] after it has written 13 entries: the banner, the
    configuration, the inputs and the Thevenin pair, whose voltage line
    is the 12th.  Nothing of the output section is written. *)
Theorem display_results_fails_after_thevenin :
  forall (self : R2RNetwork.t R) (v1 v2 v3 : R) (out : stdout R),
    R2RNetwork.speaker_load self = 0
    \/ R2RNetwork.R self + R2RNetwork.speaker_load self = 0 ->
    R2RNetwork.display_results self v1 v2 v3 out
    = (Raise ZeroDivisionError, (out ++ report_entries self v1 v2 v3)%list)
    /\ List.length (report_entries self v1 v2 v3) = 13%nat
    /\ nth_error (report_entries self v1 v2 v3) 11
       = Some [Text "  V_th: "; Fixed 0 6 (v1 / 2 + v2 / 4 + v3 / 8); Text " V"]
    /\ nth_error (report_entries self v1 v2 v3) 12
       = Some [Text "  R_th: "; Fixed 0 1 (R2RNetwork.R self / 1000); Text " kΩ"].
Proof.
  intros self v1 v2 v3 out Hz.
  split.
  - rewrite display_results_frame. f_equal.
    run_report. now rewrite output_real_raises.
  - run_report. rewrite output_real_raises by assumption.
    repeat split; reflexivity.
Qed.

Lemma display_results_fails_after_thevenin_witness :
  R2RNetwork.display_results (R2RNetwork.mk (-16) 3 16) 5 0 5 []
  = (Raise ZeroDivisionError,
     ([] ++ report_entries (R2RNetwork.mk (-16) 3 16) 5 0 5)%list)
  /\ List.length (report_entries (R2RNetwork.mk (-16) 3 16) 5 0 5) = 13%nat
  /\ nth_error (report_entries (R2RNetwork.mk (-16) 3 16) 5 0 5) 11
     = Some [Text "  V_th: "; Fixed 0 6 (5 / 2 + 0 / 4 + 5 / 8); Text " V"]
  /\ nth_error (report_entries (R2RNetwork.mk (-16) 3 16) 5 0 5) 12
     = Some [Text "  R_th: "; Fixed 0 1 (-16 / 1000); Text " kΩ"].
Proof.
  apply (display_results_fails_after_thevenin
           (R2RNetwork.mk (-16) 3 16) 5 0 5 []).
  right. cbn. lra.
Defined.

(** X13. The report of a network that can compute returns the output
    voltage after it has written 18 entries, and its last section shows
    what [calculate_output_voltage] returns: the voltage as it is, the
    current and the power multiplied by 1000 (mA and mW). *)
Theorem display_results_shows_output :
  forall (self : R2RNetwork.t R) (v1 v2 v3 : R) (out : stdout R),
    R2RNetwork.speaker_load self <> 0 ->
    R2RNetwork.R self + R2RNetwork.speaker_load self <> 0 ->
    exists v_out current power : R,
      R2RNetwork.calculate_output_voltage self v1 v2 v3
      = Ok (v_out, current, power)
      /\ R2RNetwork.display_results self v1 v2 v3 out
         = (Ok v_out, (out ++ report_entries self v1 v2 v3)%list)
      /\ List.length (report_entries self v1 v2 v3) = 18%nat
      /\ nth_error (report_entries self v1 v2 v3) 14
         = Some [Text "  Voltage: "; Fixed 0 6 v_out; Text " V"]
      /\ nth_error (report_entries self v1 v2 v3) 15
         = Some [Text "  Current: "; Fixed 0 6 (current * 1000); Text " mA"]
      /\ nth_error (report_entries self v1 v2 v3) 16
         = Some [Text "  Power:   "; Fixed 0 6 (power * 1000); Text " mW"].
Proof.
  intros self v1 v2 v3 out HL HRL.
  eexists _, _, _.
  split; [apply output_real; assumption |].
  split; [apply display_results_ok; assumption |].
  run_report. rewrite output_real by assumption.
  repeat split; reflexivity.
Qed.

Lemma display_results_shows_output_witness :
  exists v_out current power : R,
    R2RNetwork.calculate_output_voltage (R2RNetwork.mk 2000 3 16) 5 0 5
    = Ok (v_out, current, power)
    /\ R2RNetwork.display_results (R2RNetwork.mk 2000 3 16) 5 0 5 []
       = (Ok v_out, ([] ++ report_entries (R2RNetwork.mk 2000 3 16) 5 0 5)%list)
    /\ List.length (report_entries (R2RNetwork.mk 2000 3 16) 5 0 5) = 18%nat
    /\ nth_error (report_entries (R2RNetwork.mk 2000 3 16) 5 0 5) 14
       = Some [Text "  Voltage: "; Fixed 0 6 v_out; Text " V"]
    /\ nth_error (report_entries (R2RNetwork.mk 2000 3 16) 5 0 5) 15
       = Some [Text "  Current: "; Fixed 0 6 (current * 1000); Text " mA"]
    /\ nth_error (report_entries (R2RNetwork.mk 2000 3 16) 5 0 5) 16
       = Some [Text "  Power:   "; Fixed 0 6 (power * 1000); Text " mW"].
Proof.
  apply (display_results_shows_output (R2RNetwork.mk 2000 3 16) 5 0 5 []);
    cbn; lra.
Defined.

(** ** The truth table and the script *)

Lemma truth_table_row_raises (r2r : R2RNetwork.t R) (i : Z) (out : stdout R) :
  R2RNetwork.speaker_load r2r = 0
  \/ R2RNetwork.R r2r + R2RNetwork.speaker_load r2r = 0 ->
  truth_table_row r2r i out = (Raise ZeroDivisionError, out).
Proof.
  intros Hz. unfold truth_table_row.
  cbn [bind ret Monad_Py Py_bind Py_ret call].
  now rewrite output_real_raises by assumption.
Qed.

(** X14. On a network that cannot compute, the loop stops in its first pass:
    it raises [ZeroDivisionError] and writes no row. *)
Theorem truth_table_fails_at_first_row :
  forall (r2r : R2RNetwork.t R) (out : stdout R),
    R2RNetwork.speaker_load r2r = 0
    \/ R2RNetwork.R r2r + R2RNetwork.speaker_load r2r = 0 ->
    truth_table r2r out = (Raise ZeroDivisionError, out).
Proof.
  intros r2r out Hz.
  unfold truth_table.
  change (range 8) with (0%Z :: map Z.of_nat (seq 1 7)).
  change (for_in (0%Z :: map Z.of_nat (seq 1 7)) (truth_table_row r2r) out)
    with (Py_bind (truth_table_row r2r 0)
            (fun _ => for_in (map Z.of_nat (seq 1 7)) (truth_table_row r2r))
            out).
  unfold Py_bind. now rewrite truth_table_row_raises by assumption.
Qed.

Lemma truth_table_fails_at_first_row_witness :
  truth_table (R2RNetwork.mk (-16) 3 16) [] = (Raise ZeroDivisionError, []).
Proof.
  apply (truth_table_fails_at_first_row (R2RNetwork.mk (-16) 3 16) []).
  right. cbn. lra.
Defined.

(** X15. The table and the report agree: for a network that can compute,
    the pass of the loop for [i] writes one entry of nine pieces, the
    three input voltages of the row first, and the number it shows in
    the seventh piece, the output-voltage column, is the value
    [display_results] returns for these three input voltages. *)
Theorem truth_table_row_agrees_with_report :
  forall (r2r : R2RNetwork.t R) (i : Z) (out out' : stdout R),
    R2RNetwork.speaker_load r2r <> 0 ->
    R2RNetwork.R r2r + R2RNetwork.speaker_load r2r <> 0 ->
    exists v_out : R,
      fst (R2RNetwork.display_results r2r
             (bit_level i 2) (bit_level i 1) (bit_level i 0) out)
      = Ok v_out
      /\ truth_table_row r2r i out'
         = (Ok tt,
            (out' ++ [[Fixed 6 1 (bit_level i 2); Text " ";
                       Fixed 6 1 (bit_level i 1); Text " ";
                       Fixed 6 1 (bit_level i 0); Text " | ";
                       Fixed 12 6 v_out; Text " | ";
                       Text (rjust 6 (format_0b 3 i))]])%list).
Proof.
  intros r2r i out out' HL HRL.
  eexists. split.
  - now rewrite display_results_ok by assumption.
  - now rewrite truth_table_row_real by assumption.
Qed.

Lemma truth_table_row_agrees_with_report_witness :
  exists v_out : R,
    fst (R2RNetwork.display_results (R2RNetwork.mk 2000 3 16)
           (bit_level 5 2) (bit_level 5 1) (bit_level 5 0) [])
    = Ok v_out
    /\ truth_table_row (R2RNetwork.mk 2000 3 16) 5 []
       = (Ok tt,
          ([] ++ [[Fixed 6 1 (bit_level 5 2); Text " ";
                   Fixed 6 1 (bit_level 5 1); Text " ";
                   Fixed 6 1 (bit_level 5 0); Text " | ";
                   Fixed 12 6 v_out; Text " | ";
                   Text (rjust 6 (format_0b 3 5))]])%list).
Proof.
  apply (truth_table_row_agrees_with_report (R2RNetwork.mk 2000 3 16) 5 [] []);
    cbn; lra.
Defined.

Lemma report_entries_length (self : R2RNetwork.t R) (v1 v2 v3 : R) :
  R2RNetwork.speaker_load self <> 0 ->
  R2RNetwork.R self + R2RNetwork.speaker_load self <> 0 ->
  List.length (report_entries self v1 v2 v3) = 18%nat.
Proof.
  intros HL HRL. run_report. now rewrite output_real by assumption.
Qed.

(** A step of a sequence whose first computation returns. *)
Lemma Py_bind_ok {T A B : Type} (m : Py T A) (k : A -> Py T B)
      (out out' : stdout T) (a : A) :
  m out = (Ok a, out') -> Py_bind m k out = k a out'.
Proof. intros Hm. unfold Py_bind. now rewrite Hm. Qed.

Lemma skipn_past {A : Type} (n : nat) (l1 l2 : list A) :
  (List.length l1 <= n)%nat ->
  skipn n (l1 ++ l2) = skipn (n - List.length l1) l2.
Proof.
  intros Hn. rewrite skipn_app, skipn_all2 by exact Hn. reflexivity.
Qed.

(** Runs the next statement of the script. *)
Ltac script_step :=
  erewrite Py_bind_ok
    by first [ apply display_results_ok; cbn; lra
             | apply truth_table_real; cbn; lra
             | reflexivity ];
  cbv beta.

(** X16. The script runs to its end without an exception.  It writes 71
    entries after whatever was written before; the last nine are the
    eight rows of the table for the network of base resistance 2000,
    in ascending order, and the closing banner. *)
Theorem main_completes :
  forall out : stdout R,
    exists written : stdout R,
      main out = (Ok tt, (out ++ written)%list)
      /\ List.length written = 71%nat
      /\ skipn 62 written
         = (map (expected_row (R2RNetwork.mk 2000 3 16)) (range 8)
            ++ [[Text R2RNetwork.banner]])%list.
Proof.
  intros out.
  unfold main. cbn [bind Monad_Py].
  repeat script_step.
  unfold print. repeat rewrite <- app_assoc.
  eexists. split; [reflexivity |].
  split.
  - rewrite !length_app, !report_entries_length by (cbn; lra). reflexivity.
  - repeat (rewrite skipn_past
              by (rewrite ?report_entries_length by (cbn; lra); cbn; lia);
            rewrite ?report_entries_length by (cbn; lra);
            cbn [List.length Nat.sub]).
    reflexivity.
Qed.

(** ** The bit pattern of a row *)

(** The number a string of binary digits denotes, read from the left:
    every character doubles the value, and a ["1"] adds one. *)
Fixpoint bin_value_from (a : Z) (s : string) : Z :=
  match s with
  | EmptyString => a
  | String c s' =>
      bin_value_from (2 * a + (if Ascii.eqb c "1" then 1 else 0)) s'
  end.

Definition bin_value (s : string) : Z := bin_value_from 0 s.

Lemma length_append (s t : string) :
  String.length (s ++ t) = (String.length s + String.length t)%nat.
Proof. induction s as [| c s IH]; cbn; [reflexivity | now rewrite IH]. Qed.

Lemma length_str_repeat_0 (n : nat) : String.length (str_repeat "0" n) = n.
Proof. induction n as [| n IH]; cbn; [reflexivity | now rewrite IH]. Qed.

Lemma bin_value_leading_zeros (n : nat) (s : string) :
  bin_value_from 0 (str_repeat "0" n ++ s) = bin_value_from 0 s.
Proof. induction n as [| n IH]; cbn; [reflexivity | exact IH]. Qed.

Lemma length_bin_digits (p : positive) (acc : string) :
  String.length (bin_digits p acc) = (Pos.size_nat p + String.length acc)%nat.
Proof.
  revert acc. induction p as [q IH | q IH |]; intros acc; cbn.
  - rewrite IH. cbn. lia.
  - rewrite IH. cbn. lia.
  - reflexivity.
Qed.

Lemma bin_value_bin_digits (p : positive) (acc : string) :
  bin_value_from 0 (bin_digits p acc) = bin_value_from (Z.pos p) acc.
Proof.
  revert acc. induction p as [q IH | q IH |]; intros acc; cbn.
  - rewrite IH. cbn. f_equal.
  - rewrite IH. cbn. f_equal.
  - reflexivity.
Qed.

Lemma size_within_width (p : positive) (w : nat) :
  (Z.pos p < 2 ^ Z.of_nat w)%Z -> (Pos.size_nat p <= w)%nat.
Proof.
  revert w. induction p as [q IH | q IH |]; intros [| w] Hp; cbn.
  - cbn in Hp. lia.
  - rewrite Nat2Z.inj_succ, Z.pow_succ_r in Hp by lia.
    apply le_n_S, IH. lia.
  - cbn in Hp. lia.
  - rewrite Nat2Z.inj_succ, Z.pow_succ_r in Hp by lia.
    apply le_n_S, IH. lia.
  - cbn in Hp. lia.
  - lia.
Qed.

(** X17. For a width [w] of at least one digit and [0 <= i < 2^w], the
    pattern [{i:0wb}] has exactly [w] characters and denotes [i]. *)
Theorem format_0b_fixed_width_round_trip :
  forall (w : nat) (i : Z),
    (1 <= w)%nat ->
    (0 <= i < 2 ^ Z.of_nat w)%Z ->
    String.length (format_0b w i) = w
    /\ bin_value (format_0b w i) = i.
Proof.
  intros w i Hw [Hlo Hhi]. unfold bin_value.
  destruct i as [| p | p]; [| | lia]; unfold format_0b.
  - split.
    + rewrite length_append, length_str_repeat_0. cbn. lia.
    + now rewrite bin_value_leading_zeros.
  - cbv zeta. split.
    + rewrite length_append, length_str_repeat_0, length_bin_digits.
      pose proof (size_within_width p w Hhi). cbn. lia.
    + now rewrite bin_value_leading_zeros, bin_value_bin_digits.
Qed.

Lemma format_0b_fixed_width_round_trip_witness :
  String.length (format_0b 3 5) = 3%nat /\ bin_value (format_0b 3 5) = 5%Z.
Proof.
  apply (format_0b_fixed_width_round_trip 3 5); [lia | cbn; lia].
Defined.

(** X18. Different row indices get different patterns: [{i:0wb}] is
    injective on the integers that are not negative, whatever the
    width. *)
Theorem format_0b_injective :
  forall (w : nat) (i j : Z),
    (0 <= i)%Z -> (0 <= j)%Z ->
    format_0b w i = format_0b w j -> i = j.
Proof.
  intros w i j Hi Hj Heq.
  assert (Hval : forall k : Z, (0 <= k)%Z -> bin_value (format_0b w k) = k).
  { intros k Hk. unfold bin_value.
    destruct k as [| p | p]; [| | lia]; unfold format_0b; cbv zeta.
    - now rewrite bin_value_leading_zeros.
    - now rewrite bin_value_leading_zeros, bin_value_bin_digits. }
  rewrite <- (Hval i Hi), <- (Hval j Hj), Heq. reflexivity.
Qed.

Lemma format_0b_injective_witness : format_0b 3 5 <> format_0b 3 6.
Proof.
  intros Heq. apply (format_0b_injective 3 5 6) in Heq; lia.
Defined.

(** X19. In every row of the table the pattern spells the three inputs: for
    [i] from 0 to 7, the character at position [k] of the pattern is
    ["1"] exactly when the input of that position ([v1], [v2], [v3] for
    [k] = 0, 1, 2) is at the high level. *)
Theorem pattern_spells_inputs :
  forall (i : Z) (k : nat),
    (0 <= i < 8)%Z -> (k < 3)%nat ->
    String.get k (format_0b 3 i) = Some "1"%char
    <-> bit_level i (2 - Z.of_nat k) = 5.
Proof.
  intros i k Hi Hk.
  destruct k as [| [| [| k]]]; [| | | lia];
    each_row Hi; unfold bit_level;
    match goal with
    | |- context [Z.testbit ?a ?b] =>
        let v := eval vm_compute in (Z.testbit a b) in
        change (Z.testbit a b) with v
    end;
    cbn [format_0b bin_digits str_repeat String.length Nat.sub append
           String.get];
    split; intros Heq;
    solve [reflexivity | discriminate | exfalso; lra].
Qed.

Lemma pattern_spells_inputs_witness :
  String.get 0 (format_0b 3 5) = Some "1"%char
  <-> bit_level 5 (2 - Z.of_nat 0) = 5.
Proof.
  apply (pattern_spells_inputs 5 0); lia.
Defined.

(** * The truth table in binary64 *)

Local Close Scope R_scope.
Local Open Scope float_scope.

(** The number shown in the output-voltage column of a row. *)
Definition shown_v_out {T : Type} (line : list (piece T)) : option T :=
  match nth_error line 6 with
  | Some (Fixed _ _ x) => Some x
  | _ => None
  end.

(** Every element is a number and smaller than the next. *)
Fixpoint strictly_increasing (l : list (option float)) : bool :=
  match l with
  | Some x :: (Some y :: _) as l' => (x <? y) && strictly_increasing l'
  | [Some _] => true
  | [] => true
  | _ => false
  end.

(** X20. Rounding does not disturb the table of the script: in binary64 the
    loop ends without an exception for the network of base resistance
    2000, it writes eight rows, and the output voltages written are
    strictly increasing from row to row. *)
Theorem truth_table_binary64 :
  truth_table (R2RNetwork.mk 2000 3 16) []
  = (Ok tt, snd (truth_table (R2RNetwork.mk 2000 3 16) []))
  /\ List.length (snd (truth_table (R2RNetwork.mk 2000 3 16) [])) = 8%nat
  /\ strictly_increasing
       (map shown_v_out (snd (truth_table (R2RNetwork.mk 2000 3 16) [])))
     = true.
Proof. repeat split; vm_compute; reflexivity. Qed.

(** * Where rounding shows

    The linear identities and the strict bounds proved above for the
    real instance hold in binary64 up to rounding only.  The runs below
    are on the network of the script. *)

(** The output voltage of (5, 10, 5) is not the binary64 sum of those of
    (5, 5, 5) and (0, 5, 0). *)
Lemma additivity_is_rounded_binary64 :
  exists x cx px y cy py z cz pz : float,
    R2RNetwork.calculate_output_voltage (R2RNetwork.mk 2000 3 16) 5 5 5
    = Ok (x, cx, px)
    /\ R2RNetwork.calculate_output_voltage (R2RNetwork.mk 2000 3 16) 0 5 0
       = Ok (y, cy, py)
    /\ R2RNetwork.calculate_output_voltage (R2RNetwork.mk 2000 3 16) 5 10 5
       = Ok (z, cz, pz)
    /\ (z =? x + y) = false
    /\ (abs (z - (x + y)) <=? decimal 1 100000000000000000) = true.
Proof.
  eexists _, _, _, _, _, _, _, _, _.
  split; [vm_compute; reflexivity |].
  split; [vm_compute; reflexivity |].
  split; [vm_compute; reflexivity |].
  split; vm_compute; reflexivity.
Qed.

(** The power of (15, 0, 15) is not nine times that of (5, 0, 5). *)
Lemma power_scaling_is_rounded_binary64 :
  exists x c p y d q : float,
    R2RNetwork.calculate_output_voltage (R2RNetwork.mk 2000 3 16) 5 0 5
    = Ok (x, c, p)
    /\ R2RNetwork.calculate_output_voltage (R2RNetwork.mk 2000 3 16)
         (3 * 5) (3 * 0) (3 * 5)
       = Ok (y, d, q)
    /\ (q =? 3 * 3 * p) = false.
Proof.
  eexists _, _, _, _, _, _.
  split; [vm_compute; reflexivity |].
  split; vm_compute; reflexivity.
Qed.

(** For row 110 of the table the two voltage drops add up to a number
    just below the Thevenin voltage 3.75. *)
Lemma voltage_drops_are_rounded_binary64 :
  exists v_out current power : float,
    R2RNetwork.calculate_thevenin_equivalent (R2RNetwork.mk 2000 3 16) 5 5 0
    = Ok (3.75, 2000)
    /\ R2RNetwork.calculate_output_voltage (R2RNetwork.mk 2000 3 16) 5 5 0
       = Ok (v_out, current, power)
    /\ (current * 2000 + v_out <? 3.75) = true.
Proof.
  eexists _, _, _.
  split; [vm_compute; reflexivity |].
  split; vm_compute; reflexivity.
Qed.

(** With the three inputs at 0.9 the Thevenin voltage passes 7/8 * 0.9. *)
Lemma full_scale_is_rounded_binary64 :
  exists v_th : float,
    R2RNetwork.calculate_thevenin_equivalent (R2RNetwork.mk 2000 3 16)
      (decimal 9 10) (decimal 9 10) (decimal 9 10)
    = Ok (v_th, 2000)
    /\ (7 / 8 * decimal 9 10 <? v_th) = true.
Proof.
  eexists. split; vm_compute; reflexivity.
Qed.

(** Raising the first input from 5 to the next float leaves the output
    voltage as it is. *)
Lemma close_levels_merge_binary64 :
  exists x cx px y cy py : float,
    (5 <? next_up 5) = true
    /\ R2RNetwork.calculate_output_voltage (R2RNetwork.mk 2000 3 16) 5 5 5
       = Ok (x, cx, px)
    /\ R2RNetwork.calculate_output_voltage (R2RNetwork.mk 2000 3 16)
         (next_up 5) 5 5
       = Ok (y, cy, py)
    /\ (x =? y) = true.
Proof.
  eexists _, _, _, _, _, _.
  split; [vm_compute; reflexivity |].
  split; [vm_compute; reflexivity |].
  split; vm_compute; reflexivity.
Qed.
